(** * vsphere_file: managing one path on a vCenter datastore

    A shallow embedding of [plugins/modules/vsphere_file.py] and the
    properties of its URL construction and of its reconciliation routine.

    Python [str] values are modelled as byte strings ([string], one [ascii]
    per byte of the UTF-8 encoding), which is what [urllib]'s [quote] works
    on.  The remote services (the datastore HTTP endpoint and the file
    manager of the management API) are an explicit record of replies; the
    calls made to them are recorded in a trace. *)

From Stdlib Require Import String Ascii List Bool ZArith Arith Lia.
Import ListNotations.
Local Open Scope string_scope.

(** ** Python string primitives *)

Module PyStr.

(** [c in s] for a one-character [c]. *)
Fixpoint mem (c : ascii) (s : string) : bool :=
  match s with
  | EmptyString => false
  | String d s' => Ascii.eqb c d || mem c s'
  end.

(** [s.lstrip(c)] for a one-character [c]. *)
Fixpoint lstrip (c : ascii) (s : string) : string :=
  match s with
  | EmptyString => EmptyString
  | String d s' => if Ascii.eqb d c then lstrip c s' else s
  end.

(** [s.rstrip(c)] for a one-character [c]. *)
Fixpoint rstrip (c : ascii) (s : string) : string :=
  match s with
  | EmptyString => EmptyString
  | String d s' =>
      match rstrip c s' with
      | EmptyString => if Ascii.eqb d c then EmptyString else String d EmptyString
      | r => String d r
      end
  end.

(** [s.strip(c)] *)
Definition strip (c : ascii) (s : string) : string := rstrip c (lstrip c s).

(** [s.replace(old, new)] for a one-character [old]. *)
Fixpoint replace (old : ascii) (new : string) (s : string) : string :=
  match s with
  | EmptyString => EmptyString
  | String d s' =>
      (if Ascii.eqb d old then new else String d EmptyString) ++ replace old new s'
  end.

(** [s.startswith(p)] *)
Definition startswith (p s : string) : bool := String.prefix p s.

(** [sep.join(l)] *)
Definition join (sep : string) (l : list string) : string := String.concat sep l.

(** [''.join(f(c) for c in s)] *)
Fixpoint flat_map (f : ascii -> string) (s : string) : string :=
  match s with
  | EmptyString => EmptyString
  | String d s' => f d ++ flat_map f s'
  end.

(** [s.lower()] on ASCII letters, as header names are compared. *)
Definition lower_char (c : ascii) : ascii :=
  let n := nat_of_ascii c in
  if (65 <=? n)%nat && (n <=? 90)%nat then ascii_of_nat (n + 32) else c.

Fixpoint lower (s : string) : string :=
  match s with
  | EmptyString => EmptyString
  | String d s' => String (lower_char d) (lower s')
  end.

(** [s[:1] == c], [s[-1:] == c] and [set(s) <= {c}]. *)
Definition first_is (c : ascii) (s : string) : bool :=
  match s with
  | EmptyString => false
  | String d _ => Ascii.eqb d c
  end.

Fixpoint last_is (c : ascii) (s : string) : bool :=
  match s with
  | EmptyString => false
  | String d EmptyString => Ascii.eqb d c
  | String _ s' => last_is c s'
  end.

Fixpoint only (c : ascii) (s : string) : bool :=
  match s with
  | EmptyString => true
  | String d s' => Ascii.eqb d c && only c s'
  end.

(** Number of occurrences of a character. *)
Fixpoint count (c : ascii) (s : string) : nat :=
  match s with
  | EmptyString => 0
  | String d s' => (if Ascii.eqb d c then 1 else 0) + count c s'
  end.

End PyStr.

(** ** [urllib]'s [quote], [quote_plus] and [urlencode] *)

Module Urllib.

Definition letters_digits : string :=
  "ABCDEFGHIJKLMNOPQRSTUVWXYZabcdefghijklmnopqrstuvwxyz0123456789".

(** The characters [quote] never encodes: letters, digits and [_.-], and
    also [~] from Python 3.7 on ([tilde] says which). *)
Definition always_safe (tilde : bool) (c : ascii) : bool :=
  PyStr.mem c letters_digits || PyStr.mem c "_.-" || (tilde && Ascii.eqb c "~").

Definition hex_digit (n : nat) : ascii :=
  match String.get n "0123456789ABCDEF" with
  | Some c => c
  | None => "0"%char
  end.

(** ['%{:02X}'.format(byte)] *)
Definition percent (c : ascii) : string :=
  let n := nat_of_ascii c in
  String "%" (String (hex_digit (n / 16)) (String (hex_digit (n mod 16)) EmptyString)).

(** What [quote] does to one byte. *)
Definition quoter (tilde : bool) (safe : string) (c : ascii) : string :=
  if always_safe tilde c || PyStr.mem c safe then String c EmptyString else percent c.

(** [quote(s, safe)] *)
Definition quote (tilde : bool) (s : string) (safe : string) : string :=
  PyStr.flat_map (quoter tilde safe) s.

(** [quote_plus(s, safe)]: as [quote], with a space written [+]. *)
Definition quote_plus (tilde : bool) (s : string) (safe : string) : string :=
  if PyStr.mem " " s
  then PyStr.replace " " "+" (quote tilde s (safe ++ " "))
  else quote tilde s safe.

(** [urlencode(params)] on a dict of strings.  The pairs come in insertion
    order, the order in which a dict is iterated from Python 3.7 on. *)
Definition urlencode (tilde : bool) (params : list (string * string)) : string :=
  PyStr.join "&"
    (map (fun kv => quote_plus tilde (fst kv) "" ++ "=" ++ quote_plus tilde (snd kv) "")
         params).

End Urllib.

(** ** The two encodings of the target path *)

Section Paths.

(** Whether the interpreter's [quote] leaves [~] alone. *)
Variable tilde : bool.

(** [vmware_path(datastore, datacenter, path)]: the path and query of the
    datastore's HTTP endpoint. *)
Definition vmware_path (datastore datacenter path : string) : string :=
  let path := "/folder/" ++ Urllib.quote tilde (PyStr.strip "/" path) "/" in
  let datacenter := PyStr.replace "&" "%26" datacenter in
  let path := if negb (PyStr.startswith "/" path) then "/" ++ path else path in
  let params := [("dsName", datastore)] in
  let params :=
    if negb (String.eqb datacenter "") then (params ++ [("dcPath", datacenter)])%list
    else params in
  path ++ "?" ++ Urllib.urlencode tilde params.

(** [vmware_path2(datastore, path)]: the file specifier of the management
    API. *)
Definition vmware_path2 (datastore path : string) : string :=
  "[" ++ datastore ++ "] " ++ Urllib.quote tilde (PyStr.strip "/" path) "/".

End Paths.

(** ** Values exchanged with the host and with the remote services *)

(** The [state] option: [choices=['absent', 'directory', 'file', 'touch']]. *)
Inductive State := absent | directory | file | touch.

(** The Python values that end up in a failure's [errno]. *)
Inductive pyval :=
| PyNone
| PyInt (n : Z)
| PyStr (s : string)
| PyNames (l : list string).

(** An exception object: its [args], its text ([to_native(e)]) and the
    names [dir(e)] lists. *)
Record PyException := {
  args : list pyval;
  text : string;
  attributes : list string
}.

(** Exceptions that nothing catches. *)
Inductive PyError := TypeError | ValueError | IndexError.

(** What [open_url] hands back, as a response or as an [HTTPError]: both
    answer [getcode()], [msg] and [headers].  [headers] holds the header
    fields as [r.headers.items()] lists them: in the order received, a
    name as often as it was sent. *)
Record Response := {
  getcode : Z;
  msg : string;
  headers : list (string * string)
}.

Inductive UrlReply :=
| Returned (r : Response)
| RaisedHTTPError (e : Response)
| RaisedSocketError (e : PyException)
| RaisedException (e : PyException).

(** [wait_for_task(task)] returns or raises. *)
Inductive TaskReply :=
| TaskDone
| TaskRaised (e : PyException).

Inductive Method := HEAD | PUT.

(** The remote side of one run.  [session] is the outcome of building the
    management-API client ([PyVmomi.__init__], which lives outside this
    module): [None] when the client is built, the reported message
    otherwise. *)
Record Remote := {
  session : option string;
  open_url : Method -> string -> UrlReply;
  DeleteFile : string -> TaskReply;
  MakeDirectory : string -> bool -> TaskReply
}.

(** The calls one run makes, in order. *)
Inductive Call :=
| CallOpenUrl (method : Method) (url : string) (timeout : Z)
              (url_username url_password : string) (validate_certs : bool)
| CallDeleteFile (spec : string) (datacenter : string)
| CallMakeDirectory (spec : string) (datacenter : string) (createParents : bool).

(** [module.params] and [module.check_mode]. *)
Record Params := {
  host : string;
  username : string;
  password : string;
  datacenter : string;
  datastore : string;
  path : string;
  validate_certs : bool;
  timeout : Z;
  state : State
}.

Record AnsibleModule := {
  params : Params;
  check_mode : bool
}.

(** The [result] dict.  [r_size] and [r_status] start as [None];
    [r_reason] is [None] as long as the key is not set. *)
Record Result := {
  r_path : string;
  r_size : option Z;
  r_state : State;
  r_status : option Z;
  r_url : string;
  r_reason : option string
}.

(** The keyword arguments of one [fail_json] call: [msg], the optional
    [errno] and [headers], and the [result] dict with [reason] merged in. *)
Record Failure := {
  f_msg : string;
  f_errno : option pyval;
  f_headers : option (list (string * string));
  f_result : Result
}.

(** How a run ends. *)
Inductive Outcome :=
| ExitJson (changed : bool) (r : Result)
| FailJson (f : Failure)
| SessionFailed (m : string)
| Crash (e : PyError).

(** ** A monad for [main]: the [result] dict and the trace as state, and
    [exit_json]/[fail_json]/an uncaught exception as early exits *)

Record St := {
  result : Result;
  calls : list Call
}.

Inductive Step (A : Type) :=
| Next (a : A) (s : St)
| Stop (o : Outcome) (s : St).
Arguments Next {A} a s.
Arguments Stop {A} o s.

Definition M (A : Type) : Type := St -> Step A.

Definition ret {A} (a : A) : M A := fun s => Next a s.

Definition bind {A B} (m : M A) (k : A -> M B) : M B :=
  fun s =>
    match m s with
    | Next a s' => k a s'
    | Stop o s' => Stop o s'
    end.

Declare Scope py_scope.
Delimit Scope py_scope with py.
Notation "x <- m ;; k" := (bind m (fun x => k))
  (at level 61, m at next level, right associativity) : py_scope.
Notation "m ;; k" := (bind m (fun _ => k))
  (at level 61, right associativity) : py_scope.
Local Open Scope py_scope.

Definition stop {A} (o : Outcome) : M A := fun s => Stop o s.

Definition raise {A} (e : PyError) : M A := stop (Crash e).

Definition get_result : M Result := fun s => Next (result s) s.

Definition modify (f : Result -> Result) : M unit :=
  fun s => Next tt {| result := f (result s); calls := calls s |}.

Definition emit (c : Call) : M unit :=
  fun s => Next tt {| result := result s; calls := (calls s ++ [c])%list |}.

Definition when (b : bool) (m : M unit) : M unit := if b then m else ret tt.

(** [result['size'] = v] and the like. *)
Definition set_size (v : option Z) (r : Result) : Result :=
  {| r_path := r_path r; r_size := v; r_state := r_state r;
     r_status := r_status r; r_url := r_url r; r_reason := r_reason r |}.

Definition set_state (v : State) (r : Result) : Result :=
  {| r_path := r_path r; r_size := r_size r; r_state := v;
     r_status := r_status r; r_url := r_url r; r_reason := r_reason r |}.

Definition set_status (v : option Z) (r : Result) : Result :=
  {| r_path := r_path r; r_size := r_size r; r_state := r_state r;
     r_status := v; r_url := r_url r; r_reason := r_reason r |}.

Definition set_reason (v : string) (r : Result) : Result :=
  {| r_path := r_path r; r_size := r_size r; r_state := r_state r;
     r_status := r_status r; r_url := r_url r; r_reason := Some v |}.

(** [module.exit_json(changed=c, **result)] *)
Definition exit_json {A} (c : bool) : M A :=
  r <- get_result ;; stop (ExitJson c r).

(** [module.fail_json(msg=m, errno=.., headers=.., reason=.., **result)].
    A [reason] keyword next to a [result] that already has the key is a
    [TypeError] (the keyword is given twice). *)
Definition fail_json {A} (m : string) (errno : option pyval)
    (hdrs : option (list (string * string))) (reason : option string) : M A :=
  r <- get_result ;;
  match reason, r_reason r with
  | Some _, Some _ => raise TypeError
  | Some v, None =>
      stop (FailJson {| f_msg := m; f_errno := errno; f_headers := hdrs;
                        f_result := set_reason v r |})
  | None, _ =>
      stop (FailJson {| f_msg := m; f_errno := errno; f_headers := hdrs;
                        f_result := r |})
  end.

(** ** The module *)

(** [headers.get(name, None)]: header names compare without case. *)
Fixpoint headers_get (name : string) (hdrs : list (string * string)) : option string :=
  match hdrs with
  | [] => None
  | (k, v) :: rest =>
      if String.eqb (PyStr.lower k) (PyStr.lower name) then Some v
      else headers_get name rest
  end.

(** [dict(r.headers)]: one entry per name, in the order of the first
    occurrence, with the value [r.headers[name]], the first one sent under
    that name whatever its case. *)
Fixpoint dict_from (all : list (string * string)) (seen : list string)
    (hdrs : list (string * string)) : list (string * string) :=
  match hdrs with
  | [] => []
  | (k, _) :: rest =>
      if existsb (String.eqb k) seen then dict_from all seen rest
      else
        match headers_get k all with
        | Some v => (k, v) :: dict_from all (k :: seen) rest
        | None => dict_from all (k :: seen) rest
        end
  end.

Definition dict (hdrs : list (string * string)) : list (string * string) :=
  dict_from hdrs [] hdrs.

Section Main.

(** The interpreter: whether [quote] leaves [~] alone, [six.PY2], and the
    builtin [int] on a [str] ([None] for a [ValueError]). *)
Variable tilde : bool.
Variable PY2 : bool.
Variable int_str : string -> option Z.

Variable module : AnsibleModule.
Variable remote : Remote.

(** [int(v)] for [v] a [str] or [None]. *)
Definition int (v : option string) : M Z :=
  match v with
  | None => raise TypeError
  | Some s =>
      match int_str s with
      | Some n => ret n
      | None => raise ValueError
      end
  end.

(** [e[0]]: the first of [e.args] on Python 2, where it is an
    [IndexError] when there is none; a [TypeError] on Python 3, where an
    exception cannot be indexed. *)
Definition getitem0 (e : PyException) : M pyval :=
  if PY2 then
    match args e with
    | v :: _ => ret v
    | [] => raise IndexError
    end
  else raise TypeError.

(** [VMwareDatastore(module)] *)
Definition VMwareDatastore : M unit :=
  match session remote with
  | None => ret tt
  | Some m => stop (SessionFailed m)
  end.

(** [VMwareDatastore.delete_file(path)]; the value is what it raised. *)
Definition delete_file (path : string) : M (option PyException) :=
  let spec := vmware_path2 tilde (datastore (params module)) path in
  emit (CallDeleteFile spec (datacenter (params module))) ;;
  match DeleteFile remote spec with
  | TaskDone => ret None
  | TaskRaised e => ret (Some e)
  end.

(** [VMwareDatastore.create_directory(path)]; the value is what it
    raised. *)
Definition create_directory (path : string) : M (option PyException) :=
  let spec := vmware_path2 tilde (datastore (params module)) path in
  emit (CallMakeDirectory spec (datacenter (params module)) true) ;;
  match MakeDirectory remote spec true with
  | TaskDone => ret None
  | TaskRaised e => ret (Some e)
  end.

(** [open_url(url, method=.., timeout=.., url_username=.., ...)] *)
Definition call_open_url (method : Method) (url : string) : M UrlReply :=
  let p := params module in
  emit (CallOpenUrl method url (timeout p) (username p) (password p) (validate_certs p)) ;;
  ret (open_url remote method url).

(** [main()].  Every path ends in [exit_json], in [fail_json] or in an
    exception, hence the empty type of results.  ([sys.exc_clear()] on
    Python 2 has no effect on what the run reports and is left out.) *)
Definition main : M Empty_set :=
  let host := host (params module) in
  let datacenter := datacenter (params module) in
  let datastore := datastore (params module) in
  let path := path (params module) in
  let state := state (params module) in
  let remote_path := vmware_path tilde datastore datacenter path in
  let url := "https://" ++ host ++ remote_path in
  modify (fun _ => {| r_path := path; r_size := None; r_state := state;
                      r_status := None; r_url := url; r_reason := None |}) ;;
  VMwareDatastore ;;
  (* Check if the file/directory exists *)
  reply <- call_open_url HEAD url ;;
  r <- match reply with
       | Returned r => ret r
       | RaisedHTTPError e => ret e
       | RaisedSocketError e =>
           errno <- getitem0 e ;;
           fail_json (text e) (Some errno) None (Some (text e))
       | RaisedException e =>
           fail_json (text e) (Some (PyNames (attributes e))) None (Some (text e))
       end ;;
  let status := getcode r in
  exists_ <-
    (if (status =? 200)%Z then
       n <- int (headers_get "content-length" (headers r)) ;;
       modify (set_size (Some n)) ;;
       ret true
     else if (status =? 404)%Z then
       ret false
     else
       modify (set_reason (msg r)) ;;
       modify (set_status (Some status)) ;;
       fail_json ("Failed to query for file '" ++ path ++ "'")
                 (Some PyNone) (Some (dict (headers r))) None) ;;
  match state with
  | absent =>
      when (negb exists_) (exit_json false) ;;
      when (negb (check_mode module))
        (raised <- delete_file path ;;
         match raised with
         | None => ret tt
         | Some e =>
             errno <- getitem0 e ;;
             fail_json (text e) (Some errno) None (Some (text e))
         end) ;;
      exit_json true
  | directory =>
      when exists_ (exit_json false) ;;
      when (negb (check_mode module))
        (raised <- create_directory path ;;
         match raised with
         | None => ret tt
         | Some e =>
             errno <- getitem0 e ;;
             fail_json (text e) (Some errno) None (Some (text e))
         end) ;;
      exit_json true
  | file =>
      when (negb exists_)
        (modify (set_state absent) ;;
         modify (set_status (Some status)) ;;
         fail_json ("File '" ++ path ++ "' is absent, cannot continue")
                   None None None) ;;
      modify (set_status (Some status)) ;;
      exit_json false
  | touch =>
      when exists_
        (modify (set_state file) ;;
         exit_json false) ;;
      (if check_mode module then
         modify (set_reason "Created") ;;
         modify (set_status (Some 201%Z))
       else
         reply <- call_open_url PUT url ;;
         r <- match reply with
              | Returned r => ret r
              | RaisedHTTPError e => ret e
              | RaisedSocketError e =>
                  errno <- getitem0 e ;;
                  fail_json (text e) (Some errno) None (Some (text e))
              | RaisedException e =>
                  errno <- getitem0 e ;;
                  fail_json (text e) (Some errno) None (Some (text e))
              end ;;
         modify (set_reason (msg r)) ;;
         modify (set_status (Some (getcode r))) ;;
         s <- get_result ;;
         when (match r_status s with Some c => negb (c =? 201)%Z | None => true end)
           (fail_json ("Failed to touch '" ++ path ++ "'")
                      (Some PyNone) (Some (dict (headers r))) None)) ;;
      modify (set_size (Some 0%Z)) ;;
      modify (set_state file) ;;
      exit_json true
  end.

(** The state [main] starts from: no [result] yet, nothing called. *)
Definition initial : St :=
  {| result := {| r_path := ""; r_size := None; r_state := state (params module);
                  r_status := None; r_url := ""; r_reason := None |};
     calls := [] |}.

(** One run: the calls made and the way it ended. *)
Definition run : list Call * Outcome :=
  match main initial with
  | Next e _ => match e with end
  | Stop o s => (calls s, o)
  end.

Definition trace : list Call := fst run.
Definition outcome : Outcome := snd run.

(** The URL every request of a run goes to. *)
Definition url : string :=
  let p := params module in
  "https://" ++ host p ++ vmware_path tilde (datastore p) (datacenter p) (path p).

End Main.

(** ** Vocabulary for the properties *)

(** The calls that change the datastore. *)
Definition is_put (c : Call) : bool :=
  match c with CallOpenUrl PUT _ _ _ _ _ => true | _ => false end.

Definition is_delete (c : Call) : bool :=
  match c with CallDeleteFile _ _ => true | _ => false end.

Definition is_mkdir (c : Call) : bool :=
  match c with CallMakeDirectory _ _ _ => true | _ => false end.

Definition is_mutating (c : Call) : bool := is_put c || is_delete c || is_mkdir c.

(** A reply of [open_url] that has a status: a response or an [HTTPError]. *)
Definition response_of (reply : UrlReply) : option Response :=
  match reply with
  | Returned r | RaisedHTTPError r => Some r
  | RaisedSocketError _ | RaisedException _ => None
  end.

Section Vocabulary.

Variable tilde : bool.
Variable int_str : string -> option Z.
Variable module : AnsibleModule.
Variable remote : Remote.

(** The HEAD request got the response [r]. *)
Definition head_response (r : Response) : Prop :=
  session remote = None /\
  response_of (open_url remote HEAD (url tilde module)) = Some r.

(** The PUT request, if made, gets the response [r]. *)
Definition put_response (r : Response) : Prop :=
  response_of (open_url remote PUT (url tilde module)) = Some r.

(** The [content-length] of [r] is the integer [n]. *)
Definition content_length (r : Response) (n : Z) : Prop :=
  exists s, headers_get "content-length" (headers r) = Some s /\ int_str s = Some n.

(** The probe found the path ([exists_ = true], status 200 and a length)
    or found it missing ([exists_ = false], status 404): the run reaches
    the dispatch on [state]. *)
Definition probed (r : Response) (exists_ : bool) : Prop :=
  head_response r /\
  if exists_ then getcode r = 200%Z /\ exists n, content_length r n
  else getcode r = 404%Z.

(** The file specifier the management API is called with. *)
Definition spec : string :=
  vmware_path2 tilde (datastore (params module)) (path (params module)).

(** The four calls a run can make. *)
Definition head_call : Call :=
  let p := params module in
  CallOpenUrl HEAD (url tilde module) (timeout p) (username p) (password p)
              (validate_certs p).

Definition put_call : Call :=
  let p := params module in
  CallOpenUrl PUT (url tilde module) (timeout p) (username p) (password p)
              (validate_certs p).

Definition delete_call : Call :=
  CallDeleteFile spec (datacenter (params module)).

Definition mkdir_call : Call :=
  CallMakeDirectory spec (datacenter (params module)) true.

End Vocabulary.

(** Percent-encoding of one byte of a query value, as the specification
    words it: unreserved bytes stay, a space is written [+], any other byte
    becomes [%XX]. *)
Definition encode_once (tilde : bool) (c : ascii) : string :=
  if Urllib.always_safe tilde c then String c EmptyString
  else if Ascii.eqb c " " then "+"
  else Urllib.percent c.

(** The same for the datacenter name, whose [&] is encoded twice. *)
Definition encode_datacenter (tilde : bool) (c : ascii) : string :=
  if Ascii.eqb c "&" then "%2526" else encode_once tilde c.

(** What the handler of a failed delete, mkdir or PUT leads to: it
    evaluates [e[0]] before it reports.  On Python 3 that is a [TypeError];
    on Python 2 it is an [IndexError] for an exception without arguments,
    and otherwise the failure is reported with the text of the exception. *)
Definition handled (PY2 : bool) (e : PyException) (o : Outcome) : Prop :=
  if PY2 then
    match args e with
    | v :: _ =>
        exists f, o = FailJson f /\ f_msg f = text e /\ f_errno f = Some v
                  /\ r_reason (f_result f) = Some (text e)
    | [] => o = Crash IndexError
    end
  else o = Crash TypeError.

(** The cells of the dispatch table in which the path has to change. *)
Definition change_needed (st : State) (exists_ : bool) : bool :=
  match st, exists_ with
  | absent, true | directory, false | touch, false => true
  | _, _ => false
  end.

(** An [int] for examples: one or more ASCII digits. *)
Fixpoint digits (acc : Z) (s : string) : option Z :=
  match s with
  | EmptyString => Some acc
  | String c s' =>
      let n := nat_of_ascii c in
      if (48 <=? n)%nat && (n <=? 57)%nat
      then digits (10 * acc + Z.of_nat (n - 48)) s'
      else None
  end.

Definition decimal (s : string) : option Z :=
  match s with
  | EmptyString => None
  | _ => digits 0 s
  end.

(** Sample inputs. *)
Definition sample_params (st : State) : Params :=
  {| host := "vcenter.example.org"; username := "admin"; password := "secret";
     datacenter := "DC1"; datastore := "datastore1"; path := "a/b";
     validate_certs := true; timeout := 10; state := st |}.

Definition sample_module (st : State) (check : bool) : AnsibleModule :=
  {| params := sample_params st; check_mode := check |}.

Definition response (code : Z) (m : string) (h : list (string * string)) : Response :=
  {| getcode := code; msg := m; headers := h |}.

Definition found_response : Response := response 200 "OK" [("Content-Length", "42")].
Definition missing_response : Response := response 404 "Not Found" [].
Definition created_response : Response := response 201 "Created" [].
Definition error_response : Response :=
  response 500 "Internal Server Error" [("Connection", "close")].
Definition chunked_response : Response :=
  response 200 "OK" [("Transfer-Encoding", "chunked")].
Definition garbled_response : Response :=
  response 200 "OK" [("Content-Length", "abc")].

Definition repeated_response : Response :=
  response 503 "Service Unavailable"
    [("X-A", "1"); ("Retry-After", "5"); ("x-a", "2"); ("X-A", "3")].

Definition found : UrlReply := Returned found_response.
Definition not_found : UrlReply := RaisedHTTPError missing_response.
Definition created : UrlReply := Returned created_response.
Definition server_error : UrlReply := RaisedHTTPError error_response.

Definition boom : PyException :=
  {| args := [PyStr "boom"]; text := "boom"; attributes := ["args"] |}.

(** A remote that answers HEAD with [h] and PUT with [p], and whose tasks
    end as [d] (delete) and [m] (mkdir). *)
Definition sample_remote (h p : UrlReply) (d m : TaskReply) : Remote :=
  {| session := None;
     open_url := fun method _ => match method with HEAD => h | PUT => p end;
     DeleteFile := fun _ => d;
     MakeDirectory := fun _ _ => m |}.

(** ** Vocabulary for further properties *)

(** Every byte of [s] satisfies [f]. *)
Fixpoint all_bytes (f : ascii -> bool) (s : string) : bool :=
  match s with
  | EmptyString => true
  | String c s' => f c && all_bytes f s'
  end.

(** The bytes [quote] leaves alone when [/] is safe. *)
Definition plain (tilde : bool) (c : ascii) : bool :=
  Urllib.always_safe tilde c || Ascii.eqb c "/".

(** The value of a hexadecimal digit as [percent] writes it. *)
Definition hex_value (c : ascii) : nat :=
  let n := nat_of_ascii c in
  if (48 <=? n)%nat && (n <=? 57)%nat then n - 48
  else if (65 <=? n)%nat && (n <=? 70)%nat then n - 55
  else 0.

(** Reads back what [quote] wrote: [%XY] is the byte with the digits [XY],
    any other byte stands for itself.  It serves to show that [quote]
    loses nothing of its input. *)
Fixpoint decode (s : string) : string :=
  match s with
  | EmptyString => EmptyString
  | String c r =>
      if Ascii.eqb c "%" then
        match r with
        | String h (String l r') =>
            String (ascii_of_nat (16 * hex_value h + hex_value l)) (decode r')
        | _ => String c (decode r)
        end
      else String c (decode r)
  end.

(** The delimiters of a URL and the space. *)
Definition is_delimiter (c : ascii) : bool := PyStr.mem c "?&=# ".

(** The state and the status a successful run reports, by requested state
    and [changed]. *)
Definition reported_state (st : State) : State :=
  match st with
  | touch => file
  | _ => st
  end.

Definition reported_status (st : State) (changed : bool) : option Z :=
  match st with
  | file => Some 200%Z
  | touch => if changed then Some 201%Z else None
  | absent | directory => None
  end.

(** * Properties *)

(** ** Strings *)

Lemma append_assoc (a b c : string) : (a ++ b) ++ c = a ++ (b ++ c).
Proof. induction a as [|x a IH]; simpl; [reflexivity | now rewrite IH]. Qed.

Lemma append_nil_r (a : string) : a ++ "" = a.
Proof. induction a as [|x a IH]; simpl; [reflexivity | now rewrite IH]. Qed.

Lemma flat_map_app f (a b : string) :
  PyStr.flat_map f (a ++ b) = PyStr.flat_map f a ++ PyStr.flat_map f b.
Proof.
  induction a as [|x a IH]; simpl; [reflexivity|].
  now rewrite IH, append_assoc.
Qed.

Lemma flat_map_ext f g (s : string) :
  (forall c, PyStr.mem c s = true -> f c = g c) ->
  PyStr.flat_map f s = PyStr.flat_map g s.
Proof.
  induction s as [|x s IH]; simpl; intros H; [reflexivity|].
  rewrite (H x), IH; [reflexivity | | ].
  - intros c Hc. apply H. rewrite Hc. apply orb_true_r.
  - now rewrite Ascii.eqb_refl.
Qed.

Lemma replace_app old new (a b : string) :
  PyStr.replace old new (a ++ b) = PyStr.replace old new a ++ PyStr.replace old new b.
Proof.
  induction a as [|x a IH]; simpl; [reflexivity|].
  now rewrite IH, append_assoc.
Qed.

Lemma replace_flat_map old new f (s : string) :
  PyStr.replace old new (PyStr.flat_map f s)
  = PyStr.flat_map (fun c => PyStr.replace old new (f c)) s.
Proof.
  induction s as [|x s IH]; simpl; [reflexivity|].
  now rewrite replace_app, IH.
Qed.

Lemma count_app c (a b : string) :
  PyStr.count c (a ++ b) = PyStr.count c a + PyStr.count c b.
Proof.
  induction a as [|x a IH]; simpl; [reflexivity|].
  rewrite IH. lia.
Qed.

Lemma lstrip_spec c (s : string) :
  exists l, s = l ++ PyStr.lstrip c s /\ PyStr.only c l = true.
Proof.
  induction s as [|x s [l [E O]]]; simpl.
  - exists "". split; reflexivity.
  - destruct (Ascii.eqb x c) eqn:Hx.
    + exists (String x l). simpl. rewrite Hx, O. split; [now rewrite <- E | reflexivity].
    + exists "". split; reflexivity.
Qed.

Lemma lstrip_first c (s : string) : PyStr.first_is c (PyStr.lstrip c s) = false.
Proof.
  induction s as [|x s IH]; simpl; [reflexivity|].
  destruct (Ascii.eqb x c) eqn:Hx; [exact IH | simpl; exact Hx].
Qed.

Lemma rstrip_spec c (s : string) :
  exists t, s = PyStr.rstrip c s ++ t /\ PyStr.only c t = true.
Proof.
  induction s as [|x s [t [E O]]]; simpl.
  - exists "". split; reflexivity.
  - destruct (PyStr.rstrip c s) as [|y r] eqn:R.
    + destruct (Ascii.eqb x c) eqn:Hx.
      * exists (String x t). simpl in *. subst t. rewrite Hx, O. now split.
      * exists t. simpl in *. subst t. now split.
    + exists t. split; [|exact O]. simpl. f_equal. exact E.
Qed.

Lemma rstrip_last c (s : string) : PyStr.last_is c (PyStr.rstrip c s) = false.
Proof.
  induction s as [|x s IH]; simpl; [reflexivity|].
  destruct (PyStr.rstrip c s) as [|y r] eqn:R.
  - destruct (Ascii.eqb x c) eqn:Hx; simpl; [reflexivity | exact Hx].
  - exact IH.
Qed.

Lemma rstrip_first c d (s : string) :
  PyStr.first_is d (PyStr.rstrip c s) = true -> PyStr.first_is d s = true.
Proof.
  destruct s as [|x s]; simpl; [easy|].
  destruct (PyStr.rstrip c s); [destruct (Ascii.eqb x c)|]; simpl; easy.
Qed.

Lemma strip_spec c (s : string) :
  exists l t, s = l ++ PyStr.strip c s ++ t
              /\ PyStr.only c l = true /\ PyStr.only c t = true
              /\ PyStr.first_is c (PyStr.strip c s) = false
              /\ PyStr.last_is c (PyStr.strip c s) = false.
Proof.
  destruct (lstrip_spec c s) as [l [El Ol]].
  destruct (rstrip_spec c (PyStr.lstrip c s)) as [t [Et Ot]].
  exists l, t. unfold PyStr.strip. repeat split; auto.
  - now rewrite <- Et.
  - destruct (PyStr.first_is c (PyStr.rstrip c (PyStr.lstrip c s))) eqn:F; [|reflexivity].
    apply rstrip_first in F. now rewrite lstrip_first in F.
  - apply rstrip_last.
Qed.

(** ** The URL encoder *)

Lemma append_cons_not_empty (a : string) c (b : string) :
  (a ++ String c b =? "")%string = false.
Proof. destruct a; reflexivity. Qed.

Lemma mem_false_neq c (s : string) d :
  PyStr.mem c s = false -> PyStr.mem d s = true -> Ascii.eqb d c = false.
Proof.
  intros Hc Hd. destruct (Ascii.eqb_spec d c) as [->|]; [congruence | reflexivity].
Qed.

(** [quote] keeps a [/] when [/] is safe. *)
Lemma quoter_slash tilde : Urllib.quoter tilde "/" "/" = "/".
Proof. destruct tilde; reflexivity. Qed.

(** No byte other than [/] yields a [/]. *)
Lemma count_quoter tilde c :
  PyStr.count "/" (Urllib.quoter tilde "/" c) = if Ascii.eqb c "/" then 1 else 0.
Proof.
  destruct tilde; destruct c as [[] [] [] [] [] [] [] []]; reflexivity.
Qed.

(** Apart from the space, [quote] with nothing safe encodes a byte once. *)
Lemma quoter_encode_once tilde c :
  Ascii.eqb c " " = false -> Urllib.quoter tilde "" c = encode_once tilde c.
Proof.
  intros H. unfold Urllib.quoter, encode_once. simpl. rewrite H, orb_false_r.
  reflexivity.
Qed.

(** [quote_plus] on a byte: [quote] with the space safe, then [+] for it. *)
Lemma quoter_plus_encode_once tilde c :
  PyStr.replace " " "+" (Urllib.quoter tilde " " c) = encode_once tilde c.
Proof.
  destruct tilde; destruct c as [[] [] [] [] [] [] [] []]; reflexivity.
Qed.

Lemma quote_plus_encode_once tilde (s : string) :
  Urllib.quote_plus tilde s "" = PyStr.flat_map (encode_once tilde) s.
Proof.
  unfold Urllib.quote_plus, Urllib.quote.
  destruct (PyStr.mem " " s) eqn:Hs.
  - simpl. rewrite replace_flat_map. apply flat_map_ext.
    intros c _. apply quoter_plus_encode_once.
  - apply flat_map_ext. intros c Hc. apply quoter_encode_once.
    exact (mem_false_neq _ _ _ Hs Hc).
Qed.

(** Once [&] is written [%26], encoding the name gives [%2526] for it. *)
Lemma encode_replaced_ampersand tilde (s : string) :
  PyStr.flat_map (encode_once tilde) (PyStr.replace "&" "%26" s)
  = PyStr.flat_map (encode_datacenter tilde) s.
Proof.
  induction s as [|c s IH]; simpl; [reflexivity|].
  rewrite flat_map_app, IH. f_equal.
  unfold encode_datacenter.
  destruct (Ascii.eqb c "&"); [destruct tilde; reflexivity | simpl; apply append_nil_r].
Qed.

Lemma vmware_path_query tilde (ds dc p : string) :
  dc <> "" ->
  vmware_path tilde ds dc p
  = "/folder/" ++ Urllib.quote tilde (PyStr.strip "/" p) "/"
    ++ "?dsName=" ++ PyStr.flat_map (encode_once tilde) ds
    ++ "&dcPath=" ++ PyStr.flat_map (encode_datacenter tilde) dc.
Proof.
  intros Hdc. unfold vmware_path.
  assert (E : (PyStr.replace "&" "%26" dc =? "")%string = false).
  { destruct dc as [|c dc]; [congruence|]. simpl.
    destruct (Ascii.eqb c "&"); reflexivity. }
  rewrite E. simpl. unfold Urllib.urlencode. simpl.
  rewrite !quote_plus_encode_once, encode_replaced_ampersand.
  reflexivity.
Qed.

(** C8: for a datacenter name with a [&] anywhere in it ([a ++ "&" ++ b]),
    the [dcPath] parameter of the generated URL carries that [&] encoded
    twice, as [%2526]; the other bytes of the datacenter name, and every
    byte of the datastore name in [dsName], are percent-encoded once. *)
Theorem datacenter_ampersand_double_encoded tilde (ds p a b : string) :
  vmware_path tilde ds (a ++ "&" ++ b) p
  = "/folder/" ++ Urllib.quote tilde (PyStr.strip "/" p) "/"
    ++ "?dsName=" ++ PyStr.flat_map (encode_once tilde) ds
    ++ "&dcPath=" ++ PyStr.flat_map (encode_datacenter tilde) a
    ++ "%2526" ++ PyStr.flat_map (encode_datacenter tilde) b.
Proof.
  rewrite vmware_path_query.
  - now rewrite flat_map_app.
  - destruct a; discriminate.
Qed.

Lemma quote_segments tilde (a b : string) :
  Urllib.quote tilde (a ++ "/" ++ b) "/"
  = Urllib.quote tilde a "/" ++ "/" ++ Urllib.quote tilde b "/".
Proof.
  unfold Urllib.quote. rewrite !flat_map_app. simpl.
  now rewrite quoter_slash.
Qed.

Lemma quote_count_slash tilde (s : string) :
  PyStr.count "/" (Urllib.quote tilde s "/") = PyStr.count "/" s.
Proof.
  unfold Urllib.quote. induction s as [|c s IH]; simpl; [reflexivity|].
  now rewrite count_app, count_quoter, IH.
Qed.

(** C9: the HTTP path begins with [/folder/]; what follows, up to the
    query, is the encoding of the input without its leading and trailing
    slashes; and encoding leaves every [/] of the stripped path in place
    (segment by segment, with as many [/] after as before). *)
Theorem http_path_folder_stripped_separator_kept tilde (ds dc p : string) :
  exists lead trail query,
    p = lead ++ PyStr.strip "/" p ++ trail
    /\ PyStr.only "/" lead = true /\ PyStr.only "/" trail = true
    /\ PyStr.first_is "/" (PyStr.strip "/" p) = false
    /\ PyStr.last_is "/" (PyStr.strip "/" p) = false
    /\ vmware_path tilde ds dc p
       = "/folder/" ++ Urllib.quote tilde (PyStr.strip "/" p) "/" ++ "?" ++ query
    /\ (forall a b,
          Urllib.quote tilde (a ++ "/" ++ b) "/"
          = Urllib.quote tilde a "/" ++ "/" ++ Urllib.quote tilde b "/")
    /\ PyStr.count "/" (Urllib.quote tilde (PyStr.strip "/" p) "/")
       = PyStr.count "/" (PyStr.strip "/" p).
Proof.
  destruct (strip_spec "/" p) as [lead [trail [E [Ol [Ot [F L]]]]]].
  exists lead, trail, (Urllib.urlencode tilde
    (if negb (PyStr.replace "&" "%26" dc =? "")%string
     then [("dsName", ds); ("dcPath", PyStr.replace "&" "%26" dc)]
     else [("dsName", ds)])).
  split; [exact E|]. split; [exact Ol|]. split; [exact Ot|].
  split; [exact F|]. split; [exact L|]. split; [|split].
  - unfold vmware_path. simpl. reflexivity.
  - intros a b. apply quote_segments.
  - apply quote_count_slash.
Qed.

(** ** Header lookup and [dict] *)

(** A lookup depends on the name up to case only. *)
Lemma headers_get_lower (a b : string) hdrs :
  PyStr.lower a = PyStr.lower b -> headers_get a hdrs = headers_get b hdrs.
Proof.
  intros E. induction hdrs as [|[k v] rest IH]; simpl; [reflexivity|].
  now rewrite E, IH.
Qed.

Lemma headers_get_present k v hdrs :
  In (k, v) hdrs -> headers_get k hdrs <> None.
Proof.
  induction hdrs as [|[k' v'] rest IH]; simpl; [easy|].
  intros [E | H].
  - injection E as -> ->. now rewrite String.eqb_refl.
  - destruct (String.eqb (PyStr.lower k') (PyStr.lower k)); [discriminate | auto].
Qed.

Lemma dict_from_lookup name all (hdrs : list (string * string)) :
  forall seen,
    (forall k, In k seen -> PyStr.lower k <> PyStr.lower name) ->
    (forall k v, In (k, v) hdrs -> headers_get k all <> None) ->
    headers_get name (dict_from all seen hdrs)
    = match headers_get name hdrs with
      | Some _ => headers_get name all
      | None => None
      end.
Proof.
  induction hdrs as [|[k v] rest IH]; intros seen Hseen Hall; simpl; [reflexivity|].
  assert (Hrest : forall k' v', In (k', v') rest -> headers_get k' all <> None)
    by (intros k' v' H; apply (Hall k' v'); now right).
  destruct (existsb (String.eqb k) seen) eqn:Hk.
  - apply existsb_exists in Hk. destruct Hk as [k' [Hin Hkk]].
    apply String.eqb_eq in Hkk. subst k'.
    apply Hseen in Hin. apply String.eqb_neq in Hin. rewrite Hin.
    now apply IH.
  - destruct (headers_get k all) as [w|] eqn:Hw.
    + simpl. destruct (String.eqb_spec (PyStr.lower k) (PyStr.lower name)) as [E|N].
      * now rewrite <- (headers_get_lower k name all E).
      * apply IH; [|exact Hrest].
        intros k' [<- | Hin]; [exact N | now apply Hseen].
    + exfalso. apply (Hall k v); [now left | exact Hw].
Qed.

(** [dict] keeps every lookup: a name, in whatever case, finds in
    [dict(r.headers)] the value it finds in [r.headers]. *)
Lemma dict_lookup name (hdrs : list (string * string)) :
  headers_get name (dict hdrs) = headers_get name hdrs.
Proof.
  unfold dict. rewrite dict_from_lookup.
  - now destruct (headers_get name hdrs).
  - intros k [].
  - intros k v. apply headers_get_present.
Qed.

(** ** The reconciliation routine *)

Ltac unfold_main :=
  unfold outcome, trace, run, main, VMwareDatastore, call_open_url, delete_file,
    create_directory, int, getitem0, when, exit_json, fail_json, get_result,
    modify, emit, raise, stop, bind, ret, initial, url, spec, head_call,
    put_call, delete_call, mkdir_call in *;
  cbv zeta in *.

(** Case analysis on a reply known to carry a response. *)
Ltac use_reply H :=
  match type of H with
  | response_of ?x = Some _ =>
      let E := fresh "E" in
      destruct x eqn:E; simpl in H; inversion H; subst; clear H
  end.

(** Case analysis on whatever [main] still branches on, innermost
    scrutinee first. *)
Ltac destruct_inner x :=
  lazymatch x with
  | context [match ?y with _ => _ end] => destruct_inner y
  | _ => destruct x eqn:?
  end.

(** Comparisons of status literals. *)
Ltac eval_literals :=
  repeat match goal with
    | |- context [(Z.pos ?a =? Z.pos ?b)%Z] =>
        let v := eval cbv in (Z.pos a =? Z.pos b)%Z in
        match v with true => idtac | false => idtac end;
        change (Z.pos a =? Z.pos b)%Z with v
    end.

Ltac step :=
  cbn -[String.append vmware_path vmware_path2 Z.eqb dict]; eval_literals;
  cbn -[String.append vmware_path vmware_path2 Z.eqb dict].

Ltac explore :=
  step;
  repeat (match goal with
          | |- context [match ?x with _ => _ end] => destruct_inner x
          end; step).

Ltac finish :=
  repeat match goal with
    | H : negb _ = true |- _ => apply negb_true_iff in H
    | H : negb _ = false |- _ => apply negb_false_iff in H
    | H : (_ =? _)%Z = true |- _ => apply Z.eqb_eq in H
    | H : (_ =? _)%Z = false |- _ => apply Z.eqb_neq in H
    | H : exists _, _ |- _ => destruct H
    | H : _ /\ _ |- _ => destruct H
    | H : Some _ = Some _ |- _ => inversion H; subst; clear H
    | H : ExitJson _ _ = ExitJson _ _ |- _ => inversion H; subst; clear H
    | |- _ /\ _ => split
    | |- _ <-> _ => split
    | |- forall _, _ => intro
    end;
  try discriminate; try congruence; try (simpl; congruence); eauto.

(** Runs [main] up to the dispatch on [state], from [H : probed r ex]. *)
Ltac run_probe H :=
  let Hs := fresh "Hs" in
  let Hr := fresh "Hr" in
  let Hc := fresh "Hc" in
  let Hl := fresh "Hl" in
  let Hi := fresh "Hi" in
  destruct H as [[Hs Hr] Hc];
  unfold put_response, content_length in *;
  unfold_main; rewrite Hs;
  use_reply Hr;
  match type of Hc with
  | _ /\ _ => destruct Hc as [Hc [? [? [Hl Hi]]]]; rewrite Hc; eval_literals;
              rewrite Hl, Hi
  | _ => rewrite Hc; eval_literals
  end.

Section Reconciliation.

Variable tilde : bool.
Variable PY2 : bool.
Variable int_str : string -> option Z.
Variable module : AnsibleModule.
Variable remote : Remote.

Abbreviation outcome := (outcome tilde PY2 int_str module remote).
Abbreviation trace := (trace tilde PY2 int_str module remote).
Abbreviation head_response := (head_response tilde module remote).
Abbreviation put_response := (put_response tilde module remote).
Abbreviation probed := (probed tilde int_str module remote).
Abbreviation head_call := (head_call tilde module).
Abbreviation put_call := (put_call tilde module).
Abbreviation delete_call := (delete_call tilde module).
Abbreviation mkdir_call := (mkdir_call tilde module).
Abbreviation url := (url tilde module).
Abbreviation spec := (spec tilde module).

(** C7: a HEAD response whose status is neither 200 nor 404 ends the run
    with a failure that carries the status code, the headers and the
    message of the response; HEAD is the only call made, and the reported
    state is the requested one, untouched by any dispatch.  The headers
    are carried as [dict(r.headers)]: one entry per name, under which
    every name looks up the value it has in the response. *)
Theorem unexpected_head_status_is_fatal (r : Response) :
  head_response r -> getcode r <> 200%Z -> getcode r <> 404%Z ->
  exists f,
    outcome = FailJson f
    /\ trace = [head_call]
    /\ f_msg f = "Failed to query for file '" ++ path (params module) ++ "'"
    /\ r_status (f_result f) = Some (getcode r)
    /\ f_headers f = Some (dict (headers r))
    /\ (forall name,
          headers_get name (dict (headers r)) = headers_get name (headers r))
    /\ r_reason (f_result f) = Some (msg r)
    /\ r_state (f_result f) = state (params module).
Proof.
  intros [Hs Hr] H2%Z.eqb_neq H4%Z.eqb_neq.
  unfold_main. rewrite Hs.
  use_reply Hr; rewrite H2, H4; step; eexists; (split; [reflexivity|]);
    cbn -[dict]; repeat split; try reflexivity; intros; apply dict_lookup.
Qed.

(** C3: with [state=file] and a HEAD response of status 404 the run fails
    with the message [File '<path>' is absent, cannot continue], and does
    not end in a success result. *)
Theorem file_on_absent_path_fails (r : Response) :
  head_response r -> getcode r = 404%Z -> state (params module) = file ->
  exists f,
    outcome = FailJson f
    /\ f_msg f = "File '" ++ path (params module) ++ "' is absent, cannot continue"
    /\ (forall changed res, outcome <> ExitJson changed res)
    /\ trace = [head_call].
Proof.
  intros [Hs Hr] H4 Hst.
  unfold_main. rewrite Hs, Hst.
  use_reply Hr; rewrite H4; simpl; eexists; (split; [reflexivity|]);
    simpl; repeat split; discriminate.
Qed.

Lemma path_and_url_kept :
  match outcome with
  | ExitJson _ res => r_path res = path (params module) /\ r_url res = url
  | FailJson f =>
      r_path (f_result f) = path (params module) /\ r_url (f_result f) = url
  | SessionFailed _ | Crash _ => True
  end.
Proof. unfold_main. explore; auto. Qed.

(** C10: with [state=file] and a HEAD response of status 404, the failure
    reports the state [absent] (no longer [file]) and the HEAD status code
    as status; and whatever way a run ends, the [path] and [url] it
    reports are those computed from the input. *)
Theorem file_absent_payload_and_frame :
  (forall r,
      head_response r -> getcode r = 404%Z -> state (params module) = file ->
      exists f,
        outcome = FailJson f
        /\ r_state (f_result f) = absent
        /\ r_status (f_result f) = Some (getcode r)
        /\ r_status (f_result f) = Some 404%Z)
  /\ match outcome with
     | ExitJson _ res => r_path res = path (params module) /\ r_url res = url
     | FailJson f =>
         r_path (f_result f) = path (params module) /\ r_url (f_result f) = url
     | SessionFailed _ | Crash _ => True
     end.
Proof.
  split; [|exact path_and_url_kept].
  intros r [Hs Hr] H4 Hst.
  unfold_main. rewrite Hs, Hst.
  use_reply Hr; rewrite H4; simpl; eexists; (split; [reflexivity|]);
    simpl; repeat split.
Qed.

(** C1, amended: once the probe has settled existence, [absent] on a
    missing path, [directory] on an existing one, [file] on an existing
    one and [touch] on an existing one all end with changed=false after
    the HEAD alone ([touch] reporting the state [file]).  [absent] on an
    existing path and [directory] on a missing one end with changed=true;
    in a dry run they make no call, otherwise they issue the delete
    (the mkdir) and end with changed=true when that call returns. *)
Theorem state_dispatch (r : Response) (exists_ : bool) :
  probed r exists_ ->
  (state (params module) = absent -> exists_ = false ->
     (exists res, outcome = ExitJson false res) /\ trace = [head_call])
  /\ (state (params module) = absent -> exists_ = true ->
       if check_mode module
       then (exists res, outcome = ExitJson true res) /\ trace = [head_call]
       else trace = [head_call; delete_call]
            /\ (DeleteFile remote spec = TaskDone ->
                exists res, outcome = ExitJson true res))
  /\ (state (params module) = directory -> exists_ = true ->
       (exists res, outcome = ExitJson false res) /\ trace = [head_call])
  /\ (state (params module) = directory -> exists_ = false ->
       if check_mode module
       then (exists res, outcome = ExitJson true res) /\ trace = [head_call]
       else trace = [head_call; mkdir_call]
            /\ (MakeDirectory remote spec true = TaskDone ->
                exists res, outcome = ExitJson true res))
  /\ (state (params module) = file -> exists_ = true ->
       (exists res, outcome = ExitJson false res) /\ trace = [head_call])
  /\ (state (params module) = touch -> exists_ = true ->
       (exists res, outcome = ExitJson false res /\ r_state res = file)
       /\ trace = [head_call]).
Proof.
  intros H.
  destruct exists_; run_probe H; explore; finish.
Qed.

(** C2: [touch] on a missing path, outside a dry run, issues exactly one
    PUT (after the HEAD, and nothing else); the run succeeds exactly when
    the PUT is answered with status 201, any other status being a failure;
    and a success reports changed=true, size 0 and the state [file]. *)
Theorem touch_creates_with_one_put (r : Response) :
  head_response r -> getcode r = 404%Z ->
  state (params module) = touch -> check_mode module = false ->
  trace = [head_call; put_call]
  /\ List.length (filter is_put trace) = 1
  /\ ((exists changed res, outcome = ExitJson changed res)
      <-> (exists r', put_response r' /\ getcode r' = 201%Z))
  /\ (forall r', put_response r' -> getcode r' <> 201%Z ->
        exists f, outcome = FailJson f
                  /\ f_msg f = "Failed to touch '" ++ path (params module) ++ "'"
                  /\ r_status (f_result f) = Some (getcode r'))
  /\ (forall changed res,
        outcome = ExitJson changed res ->
        changed = true /\ r_size res = Some 0%Z /\ r_state res = file
        /\ r_status res = Some 201%Z).
Proof.
  intros [Hs Hr] H4 Hst Hcm.
  unfold put_response. unfold_main. rewrite Hs, Hst, Hcm.
  use_reply Hr; rewrite H4; explore; finish.
Qed.

(** In a dry run no call that changes the datastore is made, whatever the
    remote side answers. *)
Lemma dry_run_makes_no_mutating_call :
  check_mode module = true -> Forall (fun c => is_mutating c = false) trace.
Proof.
  intros Hcm. unfold_main. rewrite Hcm. explore; repeat constructor.
Qed.

(** C4, amended: in a dry run no delete, mkdir or PUT is issued, whatever
    the desired state and whatever the remote side answers.  Where the
    probe has settled existence (status 404, or status 200 with an integer
    [content-length]) and the path would have to change, the run ends with
    changed=true after the HEAD alone; for [touch] it reports the
    placeholders status 201 and reason [Created], for [absent] and
    [directory] the status stays unset and no reason is reported. *)
Theorem dry_run_reports_without_mutating :
  check_mode module = true ->
  Forall (fun c => is_mutating c = false) trace
  /\ (forall r exists_,
        probed r exists_ ->
        change_needed (state (params module)) exists_ = true ->
        trace = [head_call]
        /\ exists res,
             outcome = ExitJson true res
             /\ (state (params module) = touch ->
                 r_status res = Some 201%Z /\ r_reason res = Some "Created")
             /\ (state (params module) <> touch ->
                 r_status res = None /\ r_reason res = None)).
Proof.
  intros Hcm. split; [exact (dry_run_makes_no_mutating_call Hcm)|].
  intros r ex H Hn.
  destruct ex; run_probe H; rewrite Hcm; explore; simpl in Hn;
    try discriminate; (split; [reflexivity|]); eexists;
    (split; [reflexivity|]); simpl; split; intros; try congruence;
    split; reflexivity.
Qed.

(** The size reported after a HEAD response of status 200 is the integer
    its [content-length] header holds. *)
Lemma size_is_content_length (r : Response) (n : Z) :
  head_response r -> getcode r = 200%Z -> content_length int_str r n ->
  match outcome with
  | ExitJson _ res => r_size res = Some n
  | FailJson f => r_size (f_result f) = Some n
  | SessionFailed _ => False
  | Crash _ => True
  end.
Proof.
  intros [Hs Hr] H2 [s [Hl Hi]]. unfold_main. rewrite Hs.
  use_reply Hr; rewrite H2; eval_literals; rewrite Hl, Hi; explore; auto.
Qed.

(** A HEAD response of status 200 without a usable [content-length] ends
    the run in an uncaught exception: [int(None)] is a [TypeError], and
    [int] of a string that is no number a [ValueError]. *)
Lemma missing_content_length_crashes (r : Response) :
  head_response r -> getcode r = 200%Z ->
  headers_get "content-length" (headers r) = None ->
  outcome = Crash TypeError /\ trace = [head_call].
Proof.
  intros [Hs Hr] H2 Hh. unfold_main. rewrite Hs.
  use_reply Hr; rewrite H2, Hh; split; reflexivity.
Qed.

Lemma invalid_content_length_crashes (r : Response) (v : string) :
  head_response r -> getcode r = 200%Z ->
  headers_get "content-length" (headers r) = Some v -> int_str v = None ->
  outcome = Crash ValueError /\ trace = [head_call].
Proof.
  intros [Hs Hr] H2 Hh Hi. unfold_main. rewrite Hs.
  use_reply Hr; rewrite H2, Hh; simpl; rewrite Hi; split; reflexivity.
Qed.

(** A failing delete or mkdir ends as [handled] says. *)
Lemma delete_failure (r : Response) (e : PyException) :
  probed r true -> state (params module) = absent -> check_mode module = false ->
  DeleteFile remote spec = TaskRaised e ->
  handled PY2 e outcome /\ trace = [head_call; delete_call].
Proof.
  intros H Hst Hcm Hd. unfold handled.
  run_probe H; rewrite Hst, Hcm; step;
    rewrite Hd; explore; finish;
    eexists; (split; [reflexivity|]); simpl; repeat split.
Qed.

Lemma mkdir_failure (r : Response) (e : PyException) :
  probed r false -> state (params module) = directory -> check_mode module = false ->
  MakeDirectory remote spec true = TaskRaised e ->
  handled PY2 e outcome /\ trace = [head_call; mkdir_call].
Proof.
  intros H Hst Hcm Hd. unfold handled.
  run_probe H; rewrite Hst, Hcm; step;
    rewrite Hd; explore; finish;
    eexists; (split; [reflexivity|]); simpl; repeat split.
Qed.

End Reconciliation.


(** ** The properties at sample inputs

    Python 3 ([PY2 = false], [~] unreserved), [decimal] for [int], the
    module arguments of [sample_module] and the remote of [sample_remote]. *)

Example vmware_path_example :
  vmware_path true "datastore1" "DC1 Someplace" "some/remote/file"
  = "/folder/some/remote/file?dsName=datastore1&dcPath=DC1+Someplace".
Proof. reflexivity. Qed.

Example vmware_path_ampersand :
  vmware_path true "ds 1" "R&D" "//a b/c&d/"
  = "/folder/a%20b/c%26d?dsName=ds+1&dcPath=R%2526D".
Proof. reflexivity. Qed.

Example vmware_path_no_datacenter :
  vmware_path false "ds~1" "" "/" = "/folder/?dsName=ds%7E1".
Proof. reflexivity. Qed.

Example vmware_path2_example :
  vmware_path2 true "datastore1" "/some/remote file/" = "[datastore1] some/remote%20file".
Proof. reflexivity. Qed.

Example dict_example :
  dict (headers repeated_response)
  = [("X-A", "1"); ("Retry-After", "5"); ("x-a", "1")].
Proof. reflexivity. Qed.

Example repeated_header_example :
  outcome true false decimal (sample_module file false)
    (sample_remote (RaisedHTTPError repeated_response) created TaskDone TaskDone)
  = FailJson
      {| f_msg := "Failed to query for file 'a/b'";
         f_errno := Some PyNone;
         f_headers := Some [("X-A", "1"); ("Retry-After", "5"); ("x-a", "1")];
         f_result :=
           {| r_path := "a/b"; r_size := None; r_state := file;
              r_status := Some 503%Z;
              r_url := "https://vcenter.example.org/folder/a/b?dsName=datastore1&dcPath=DC1";
              r_reason := Some "Service Unavailable" |} |}.
Proof. reflexivity. Qed.

Example touch_example :
  run true false decimal (sample_module touch false)
      (sample_remote not_found created TaskDone TaskDone)
  = ([head_call true (sample_module touch false);
      put_call true (sample_module touch false)],
     ExitJson true
       {| r_path := "a/b"; r_size := Some 0%Z; r_state := file;
          r_status := Some 201%Z;
          r_url := "https://vcenter.example.org/folder/a/b?dsName=datastore1&dcPath=DC1";
          r_reason := Some "Created" |}).
Proof. reflexivity. Qed.

Example absent_example :
  run true false decimal (sample_module absent false)
      (sample_remote found created TaskDone TaskDone)
  = ([head_call true (sample_module absent false);
      CallDeleteFile "[datastore1] a/b" "DC1"],
     ExitJson true
       {| r_path := "a/b"; r_size := Some 42%Z; r_state := absent;
          r_status := None;
          r_url := "https://vcenter.example.org/folder/a/b?dsName=datastore1&dcPath=DC1";
          r_reason := None |}).
Proof. reflexivity. Qed.

Lemma unexpected_head_status_is_fatal_witness :
  head_response true (sample_module touch false)
    (sample_remote server_error created TaskDone TaskDone) error_response
  /\ exists f,
       outcome true false decimal (sample_module touch false)
         (sample_remote server_error created TaskDone TaskDone) = FailJson f
       /\ r_status (f_result f) = Some 500%Z.
Proof.
  assert (H : head_response true (sample_module touch false)
                (sample_remote server_error created TaskDone TaskDone) error_response)
    by (split; reflexivity).
  split; [exact H|].
  destruct (unexpected_head_status_is_fatal true false decimal _ _ _ H)
    as [f [Ho [_ [_ [Hst _]]]]]; [discriminate | discriminate |].
  exists f. split; [exact Ho | exact Hst].
Defined.

Lemma file_on_absent_path_fails_witness :
  head_response true (sample_module file false)
    (sample_remote not_found created TaskDone TaskDone) missing_response
  /\ exists f,
       outcome true false decimal (sample_module file false)
         (sample_remote not_found created TaskDone TaskDone) = FailJson f
       /\ f_msg f = "File 'a/b' is absent, cannot continue".
Proof.
  assert (H : head_response true (sample_module file false)
                (sample_remote not_found created TaskDone TaskDone) missing_response)
    by (split; reflexivity).
  split; [exact H|].
  destruct (file_on_absent_path_fails true false decimal _ _ _ H)
    as [f [Ho [Hm _]]]; [reflexivity | reflexivity |].
  exists f. split; [exact Ho | exact Hm].
Defined.

Lemma file_absent_payload_and_frame_witness :
  head_response true (sample_module file false)
    (sample_remote not_found created TaskDone TaskDone) missing_response
  /\ exists f,
       outcome true false decimal (sample_module file false)
         (sample_remote not_found created TaskDone TaskDone) = FailJson f
       /\ r_state (f_result f) = absent
       /\ r_status (f_result f) = Some 404%Z.
Proof.
  assert (H : head_response true (sample_module file false)
                (sample_remote not_found created TaskDone TaskDone) missing_response)
    by (split; reflexivity).
  split; [exact H|].
  destruct (file_absent_payload_and_frame true false decimal (sample_module file false)
              (sample_remote not_found created TaskDone TaskDone)) as [Ha _].
  destruct (Ha _ H) as [f [Ho [Hst [_ Hc]]]]; [reflexivity | reflexivity |].
  exists f. repeat split; assumption.
Defined.

Lemma found_is_probed (st : State) (check : bool) (p : UrlReply) (d m : TaskReply) :
  probed true decimal (sample_module st check) (sample_remote found p d m)
         found_response true.
Proof.
  split; [split; reflexivity|]. split; [reflexivity|].
  exists 42%Z, "42". split; reflexivity.
Qed.

Lemma not_found_is_probed (st : State) (check : bool) (p : UrlReply) (d m : TaskReply) :
  probed true decimal (sample_module st check) (sample_remote not_found p d m)
         missing_response false.
Proof. split; [split; reflexivity | reflexivity]. Qed.

(** C1 as first stated fails in a dry run: [absent] on an existing path
    ends with changed=true, and no delete has been issued. *)
Lemma dry_run_absent_issues_no_delete :
  probed true decimal (sample_module absent true)
         (sample_remote found created TaskDone TaskDone) found_response true
  /\ state (params (sample_module absent true)) = absent
  /\ ~ (exists res,
          outcome true false decimal (sample_module absent true)
            (sample_remote found created TaskDone TaskDone) = ExitJson true res
          /\ In (delete_call true (sample_module absent true))
                (trace true false decimal (sample_module absent true)
                   (sample_remote found created TaskDone TaskDone))).
Proof.
  split; [apply found_is_probed|]. split; [reflexivity|].
  intros [res [_ Hin]]. vm_compute in Hin.
  destruct Hin as [Hin | []]. discriminate Hin.
Qed.

Lemma state_dispatch_witness :
  probed true decimal (sample_module absent false)
         (sample_remote found created TaskDone TaskDone) found_response true
  /\ trace true false decimal (sample_module absent false)
       (sample_remote found created TaskDone TaskDone)
     = [head_call true (sample_module absent false);
        delete_call true (sample_module absent false)]
  /\ exists res,
       outcome true false decimal (sample_module absent false)
         (sample_remote found created TaskDone TaskDone) = ExitJson true res.
Proof.
  assert (H := found_is_probed absent false created TaskDone TaskDone).
  split; [exact H|].
  destruct (state_dispatch true false decimal _ _ _ _ H) as [_ [Ha _]].
  destruct (Ha eq_refl eq_refl) as [Ht Ho].
  split; [exact Ht | exact (Ho eq_refl)].
Defined.

Lemma touch_creates_with_one_put_witness :
  head_response true (sample_module touch false)
    (sample_remote not_found created TaskDone TaskDone) missing_response
  /\ List.length
       (filter is_put
          (trace true false decimal (sample_module touch false)
             (sample_remote not_found created TaskDone TaskDone))) = 1
  /\ exists changed res,
       outcome true false decimal (sample_module touch false)
         (sample_remote not_found created TaskDone TaskDone) = ExitJson changed res
       /\ changed = true /\ r_size res = Some 0%Z /\ r_state res = file.
Proof.
  assert (H : head_response true (sample_module touch false)
                (sample_remote not_found created TaskDone TaskDone) missing_response)
    by (split; reflexivity).
  split; [exact H|].
  destruct (touch_creates_with_one_put true false decimal _ _ _ H)
    as [_ [Hn [[_ Hiff] [_ Hok]]]]; [reflexivity | reflexivity | reflexivity |].
  split; [exact Hn|].
  destruct Hiff as [changed [res Ho]].
  { exists created_response. split; reflexivity. }
  exists changed, res. split; [exact Ho|].
  destruct (Hok _ _ Ho) as [Hc [Hsz [Hst _]]]. repeat split; assumption.
Defined.

(** C4 as first stated fails for [absent]: the dry run reports
    changed=true, but with no status and no reason at all. *)
Lemma dry_run_absent_reports_no_placeholder :
  check_mode (sample_module absent true) = true
  /\ probed true decimal (sample_module absent true)
       (sample_remote found created TaskDone TaskDone) found_response true
  /\ change_needed (state (params (sample_module absent true))) true = true
  /\ ~ (exists res code reason,
          outcome true false decimal (sample_module absent true)
            (sample_remote found created TaskDone TaskDone) = ExitJson true res
          /\ r_status res = Some code /\ r_reason res = Some reason).
Proof.
  split; [reflexivity|]. split; [apply found_is_probed|]. split; [reflexivity|].
  intros [res [code [reason [Ho [Hs _]]]]].
  vm_compute in Ho. inversion Ho; subst. discriminate Hs.
Qed.

Lemma dry_run_reports_without_mutating_witness :
  check_mode (sample_module touch true) = true
  /\ Forall (fun c => is_mutating c = false)
       (trace true false decimal (sample_module touch true)
          (sample_remote not_found created TaskDone TaskDone))
  /\ exists res,
       outcome true false decimal (sample_module touch true)
         (sample_remote not_found created TaskDone TaskDone) = ExitJson true res
       /\ r_status res = Some 201%Z /\ r_reason res = Some "Created".
Proof.
  split; [reflexivity|].
  destruct (dry_run_reports_without_mutating true false decimal
              (sample_module touch true)
              (sample_remote not_found created TaskDone TaskDone) eq_refl)
    as [Hf Hd].
  split; [exact Hf|].
  destruct (Hd _ _ (not_found_is_probed touch true created TaskDone TaskDone) eq_refl)
    as [_ [res [Ho [Ht _]]]].
  exists res. split; [exact Ho|]. exact (Ht eq_refl).
Defined.

(** C5: on Python 3 a delete or a mkdir that raises is not reported: the
    handler itself raises a [TypeError] at [e[0]], and the run ends in it
    after the call was issued. *)
Theorem management_failure_is_uncaught :
  run true false decimal (sample_module absent false)
      (sample_remote found created (TaskRaised boom) TaskDone)
  = ([head_call true (sample_module absent false);
      delete_call true (sample_module absent false)],
     Crash TypeError)
  /\ run true false decimal (sample_module directory false)
       (sample_remote not_found created TaskDone (TaskRaised boom))
     = ([head_call true (sample_module directory false);
         mkdir_call true (sample_module directory false)],
        Crash TypeError).
Proof. split; reflexivity. Qed.

(** C6: a HEAD response of status 200 without a [content-length] header,
    or with one that is no number, ends the run in an uncaught [TypeError]
    or [ValueError]: neither a failure report nor a size of 0. *)
Theorem unusable_content_length_is_uncaught :
  run true false decimal (sample_module file false)
      (sample_remote (Returned chunked_response) created TaskDone TaskDone)
  = ([head_call true (sample_module file false)], Crash TypeError)
  /\ run true false decimal (sample_module file false)
       (sample_remote (Returned garbled_response) created TaskDone TaskDone)
     = ([head_call true (sample_module file false)], Crash ValueError).
Proof. split; reflexivity. Qed.


(** * Further properties *)

(** ** The URL encoder, beyond the claims *)

Lemma lstrip_app c (s t : string) :
  PyStr.lstrip c (s ++ t)
  = if PyStr.only c s then PyStr.lstrip c t else PyStr.lstrip c s ++ t.
Proof.
  induction s as [|x s IH]; simpl; [reflexivity|].
  destruct (Ascii.eqb x c); simpl; [exact IH | reflexivity].
Qed.

Lemma rstrip_only c (t : string) : PyStr.only c t = true -> PyStr.rstrip c t = "".
Proof.
  induction t as [|x t IH]; simpl; [reflexivity|].
  intros [Hx Ht]%andb_true_iff. now rewrite (IH Ht), Hx.
Qed.

Lemma rstrip_app_only c (s t : string) :
  PyStr.only c t = true -> PyStr.rstrip c (s ++ t) = PyStr.rstrip c s.
Proof.
  intros Ht. induction s as [|x s IH]; simpl.
  - now apply rstrip_only.
  - now rewrite IH.
Qed.

Lemma lstrip_only c (s : string) : PyStr.only c s = true -> PyStr.lstrip c s = "".
Proof.
  induction s as [|x s IH]; simpl; [reflexivity|].
  intros [Hx Hs]%andb_true_iff. now rewrite Hx, (IH Hs).
Qed.

Lemma strip_wrapped c (l s t : string) :
  PyStr.only c l = true -> PyStr.only c t = true ->
  PyStr.strip c (l ++ s ++ t) = PyStr.strip c s.
Proof.
  intros Hl Ht. unfold PyStr.strip.
  rewrite lstrip_app, Hl, lstrip_app.
  destruct (PyStr.only c s) eqn:Hs.
  - now rewrite (lstrip_only _ _ Ht), (lstrip_only _ _ Hs).
  - now apply rstrip_app_only.
Qed.

(** X1: slashes around the input path do not matter.  A path wrapped in
    any number of leading and trailing slashes gets the same HTTP path and
    query and the same file specifier as the path itself. *)
Theorem surrounding_slashes_ignored tilde (ds dc lead p trail : string) :
  PyStr.only "/" lead = true -> PyStr.only "/" trail = true ->
  vmware_path tilde ds dc (lead ++ p ++ trail) = vmware_path tilde ds dc p
  /\ vmware_path2 tilde ds (lead ++ p ++ trail) = vmware_path2 tilde ds p.
Proof.
  intros Hl Ht. unfold vmware_path, vmware_path2.
  now rewrite (strip_wrapped "/" lead p trail Hl Ht).
Qed.

Lemma surrounding_slashes_ignored_witness :
  PyStr.only "/" "//" = true /\ PyStr.only "/" "/" = true
  /\ vmware_path true "ds" "dc" ("//" ++ "a/b" ++ "/") = vmware_path true "ds" "dc" "a/b"
  /\ vmware_path2 true "ds" ("//" ++ "a/b" ++ "/") = vmware_path2 true "ds" "a/b".
Proof.
  split; [reflexivity|]. split; [reflexivity|].
  apply (surrounding_slashes_ignored true "ds" "dc" "//" "a/b" "/"); reflexivity.
Defined.

(** X2: a path made of slashes only (or empty) addresses the root of the
    datastore: nothing follows [/folder/] in the HTTP path, nor the
    datastore in the file specifier. *)
Theorem slashes_only_is_root tilde (ds dc p : string) :
  PyStr.only "/" p = true ->
  PyStr.strip "/" p = ""
  /\ vmware_path2 tilde ds p = "[" ++ ds ++ "] "
  /\ exists query, vmware_path tilde ds dc p = "/folder/?" ++ query.
Proof.
  intros Hp.
  assert (E : PyStr.strip "/" p = "").
  { unfold PyStr.strip. now rewrite (lstrip_only _ _ Hp). }
  split; [exact E|]. unfold vmware_path, vmware_path2. rewrite E.
  split; [reflexivity|]. eexists. simpl. reflexivity.
Qed.

Lemma slashes_only_is_root_witness :
  PyStr.only "/" "///" = true /\ vmware_path2 true "datastore1" "///" = "[datastore1] ".
Proof.
  split; [reflexivity|].
  apply (slashes_only_is_root true "datastore1" "DC1" "///"). reflexivity.
Defined.

(** X3: with an empty datacenter name the query has the [dsName]
    parameter alone; no [dcPath] is sent. *)
Theorem empty_datacenter_omits_dcPath tilde (ds p : string) :
  vmware_path tilde ds "" p
  = "/folder/" ++ Urllib.quote tilde (PyStr.strip "/" p) "/"
    ++ "?dsName=" ++ PyStr.flat_map (encode_once tilde) ds.
Proof.
  unfold vmware_path. simpl. unfold Urllib.urlencode. simpl.
  rewrite quote_plus_encode_once. reflexivity.
Qed.

Lemma is_delimiter_cases x :
  is_delimiter x = true ->
  x = "?"%char \/ x = "&"%char \/ x = "="%char \/ x = "#"%char \/ x = " "%char.
Proof.
  unfold is_delimiter. simpl. rewrite orb_false_r, !orb_true_iff, !Ascii.eqb_eq.
  tauto.
Qed.

Lemma count_delimiter_quoter tilde x c :
  is_delimiter x = true -> PyStr.count x (Urllib.quoter tilde "/" c) = 0.
Proof.
  intros H. destruct (is_delimiter_cases x H) as [->|[->|[->|[->| ->]]]];
    destruct tilde; destruct c as [[] [] [] [] [] [] [] []]; reflexivity.
Qed.

Lemma count_delimiter_encode_once tilde x c :
  is_delimiter x = true -> PyStr.count x (encode_once tilde c) = 0.
Proof.
  intros H. destruct (is_delimiter_cases x H) as [->|[->|[->|[->| ->]]]];
    destruct tilde; destruct c as [[] [] [] [] [] [] [] []]; reflexivity.
Qed.

Lemma count_delimiter_encode_datacenter tilde x c :
  is_delimiter x = true -> PyStr.count x (encode_datacenter tilde c) = 0.
Proof.
  intros H. destruct (is_delimiter_cases x H) as [->|[->|[->|[->| ->]]]];
    destruct tilde; destruct c as [[] [] [] [] [] [] [] []]; reflexivity.
Qed.

Lemma count_flat_map_zero x f (s : string) :
  (forall c, PyStr.count x (f c) = 0) -> PyStr.count x (PyStr.flat_map f s) = 0.
Proof.
  intros H. induction s as [|c s IH]; simpl; [reflexivity|].
  now rewrite count_app, H, IH.
Qed.

Lemma count_delimiter_quote tilde x (s : string) :
  is_delimiter x = true -> PyStr.count x (Urllib.quote tilde s "/") = 0.
Proof.
  intros H. apply count_flat_map_zero. intros c. now apply count_delimiter_quoter.
Qed.

Lemma vmware_path_query_empty tilde (ds p : string) :
  vmware_path tilde ds "" p
  = "/folder/" ++ Urllib.quote tilde (PyStr.strip "/" p) "/"
    ++ "?dsName=" ++ PyStr.flat_map (encode_once tilde) ds.
Proof.
  unfold vmware_path. simpl. unfold Urllib.urlencode. simpl.
  rewrite quote_plus_encode_once. reflexivity.
Qed.

Ltac count_pieces :=
  simpl; rewrite ?count_app; simpl; rewrite ?count_app; simpl;
  rewrite ?count_delimiter_quote, ?count_flat_map_zero by
    (reflexivity || (intros; first [ now apply count_delimiter_encode_once
                                   | now apply count_delimiter_encode_datacenter ]));
  reflexivity.

(** X4: whatever the names and the path contain, the generated path and
    query has exactly one [?], one [=] per parameter, one [&] between the
    two parameters when there are two, and neither a [#] nor a space: the
    input cannot add or cut a parameter. *)
Theorem query_has_only_its_own_delimiters tilde (ds dc p : string) :
  PyStr.count "?" (vmware_path tilde ds dc p) = 1
  /\ PyStr.count "=" (vmware_path tilde ds dc p)
     = (if (dc =? "")%string then 1 else 2)
  /\ PyStr.count "&" (vmware_path tilde ds dc p)
     = (if (dc =? "")%string then 0 else 1)
  /\ PyStr.count "#" (vmware_path tilde ds dc p) = 0
  /\ PyStr.count " " (vmware_path tilde ds dc p) = 0.
Proof.
  destruct (String.eqb_spec dc "") as [->|Hdc].
  - rewrite vmware_path_query_empty. repeat split; count_pieces.
  - rewrite (vmware_path_query tilde ds dc p Hdc). repeat split; count_pieces.
Qed.

Lemma decode_quoter tilde c (rest : string) :
  decode (Urllib.quoter tilde "/" c ++ rest) = String c (decode rest).
Proof.
  destruct tilde; destruct c as [[] [] [] [] [] [] [] []]; reflexivity.
Qed.

(** Decoding what [quote] wrote gives the input back. *)
Lemma decode_quote tilde (s rest : string) :
  decode (Urllib.quote tilde s "/" ++ rest) = s ++ decode rest.
Proof.
  unfold Urllib.quote. induction s as [|c s IH]; simpl; [reflexivity|].
  now rewrite append_assoc, decode_quoter, IH.
Qed.

Lemma quote_injective tilde (a b : string) :
  Urllib.quote tilde a "/" = Urllib.quote tilde b "/" -> a = b.
Proof.
  intros H.
  assert (E := decode_quote tilde a ""). rewrite append_nil_r in E.
  assert (F := decode_quote tilde b ""). rewrite append_nil_r in F.
  simpl in E, F. rewrite append_nil_r in E, F. congruence.
Qed.

Lemma append_cancel_l (a x y : string) : a ++ x = a ++ y -> x = y.
Proof. induction a as [|c a IH]; simpl; intros H; [exact H | injection H; auto]. Qed.

(** Two strings without [c] that agree up to and after a [c] are equal. *)
Lemma split_at_first c (x y q1 q2 : string) :
  PyStr.count c x = 0 -> PyStr.count c y = 0 ->
  x ++ String c q1 = y ++ String c q2 -> x = y /\ q1 = q2.
Proof.
  revert y. induction x as [|a x IH]; intros [|b y]; simpl; intros Hx Hy H.
  - injection H as ->. split; reflexivity.
  - injection H as <- _. rewrite Ascii.eqb_refl in Hy. discriminate.
  - injection H as -> _. rewrite Ascii.eqb_refl in Hx. discriminate.
  - injection H as -> H.
    destruct (Ascii.eqb b c); [discriminate|].
    destruct (IH y Hx Hy H) as [-> ->]. split; reflexivity.
Qed.

(** X5: the encoding loses nothing.  Two inputs that give the same HTTP
    path and query (for whatever datastores and datacenters), or the same
    file specifier for one datastore, are the same path once their
    surrounding slashes are stripped. *)
Theorem encoded_path_determines_path tilde (ds1 dc1 p1 ds2 dc2 p2 : string) :
  (vmware_path tilde ds1 dc1 p1 = vmware_path tilde ds2 dc2 p2 ->
   PyStr.strip "/" p1 = PyStr.strip "/" p2)
  /\ (vmware_path2 tilde ds1 p1 = vmware_path2 tilde ds1 p2 ->
      PyStr.strip "/" p1 = PyStr.strip "/" p2).
Proof.
  split; intros H.
  - unfold vmware_path in H. simpl in H.
    injection H as H.
    apply split_at_first in H; try (apply count_delimiter_quote; reflexivity).
    apply (quote_injective tilde), H.
  - unfold vmware_path2 in H.
    apply (append_cancel_l "[") in H. apply append_cancel_l in H.
    apply (append_cancel_l "] ") in H.
    now apply (quote_injective tilde).
Qed.

Lemma encoded_path_determines_path_witness :
  vmware_path2 true "ds" "/a b/" = vmware_path2 true "ds" "a b"
  /\ PyStr.strip "/" "/a b/" = PyStr.strip "/" "a b".
Proof.
  split; [reflexivity|].
  apply (proj2 (encoded_path_determines_path true "ds" "dc" "/a b/" "ds" "dc" "a b")).
  reflexivity.
Defined.

Lemma quoter_plain tilde c :
  plain tilde c = true -> Urllib.quoter tilde "/" c = String c "".
Proof.
  unfold plain, Urllib.quoter. simpl. rewrite orb_false_r. now intros ->.
Qed.

Lemma quote_plain tilde (s : string) :
  all_bytes (plain tilde) s = true -> Urllib.quote tilde s "/" = s.
Proof.
  unfold Urllib.quote. induction s as [|c s IH]; simpl; [reflexivity|].
  intros [Hc Hs]%andb_true_iff. now rewrite (quoter_plain _ _ Hc), (IH Hs).
Qed.

(** X6: a path of letters, digits, [_], [.], [-] (and [~] where [quote]
    leaves it alone) and [/] is passed on as it is: the HTTP path is
    [/folder/] and the stripped path, the file specifier the datastore in
    brackets and the stripped path. *)
Theorem plain_path_is_passed_unchanged tilde (ds dc p : string) :
  all_bytes (plain tilde) (PyStr.strip "/" p) = true ->
  vmware_path2 tilde ds p = "[" ++ ds ++ "] " ++ PyStr.strip "/" p
  /\ exists query,
       vmware_path tilde ds dc p = "/folder/" ++ PyStr.strip "/" p ++ "?" ++ query.
Proof.
  intros H. unfold vmware_path, vmware_path2. rewrite (quote_plain _ _ H).
  split; [reflexivity|]. eexists. simpl. reflexivity.
Qed.

Lemma plain_path_is_passed_unchanged_witness :
  all_bytes (plain false) (PyStr.strip "/" "/iso/debian-12.iso") = true
  /\ vmware_path2 false "datastore1" "/iso/debian-12.iso"
     = "[datastore1] iso/debian-12.iso".
Proof.
  split; [reflexivity|].
  apply (plain_path_is_passed_unchanged false "datastore1" "DC1" "/iso/debian-12.iso").
  reflexivity.
Defined.

Lemma length_append (a b : string) :
  String.length (a ++ b) = String.length a + String.length b.
Proof. induction a as [|c a IH]; simpl; [reflexivity | now rewrite IH]. Qed.

Lemma length_quoter tilde safe c :
  String.length (Urllib.quoter tilde safe c) = 1
  \/ String.length (Urllib.quoter tilde safe c) = 3.
Proof.
  unfold Urllib.quoter.
  destruct (Urllib.always_safe tilde c || PyStr.mem c safe); [left | right]; reflexivity.
Qed.

(** Encoding never shortens a string and at most triples its length,
    whatever is declared safe. *)
Lemma quote_length tilde (s safe : string) :
  String.length s <= String.length (Urllib.quote tilde s safe)
  /\ String.length (Urllib.quote tilde s safe) <= 3 * String.length s.
Proof.
  unfold Urllib.quote. induction s as [|c s [IH1 IH2]]; simpl; [lia|].
  rewrite length_append. destruct (length_quoter tilde safe c) as [-> | ->]; lia.
Qed.

Lemma length_strip c (s : string) :
  String.length (PyStr.strip c s) <= String.length s.
Proof.
  destruct (strip_spec c s) as [l [t [E _]]].
  rewrite E at 2. rewrite !length_append. lia.
Qed.

(** X7: the size of the file specifier in bytes of its UTF-8 encoding
    (the unit [String.length] counts in, strings being byte strings) is
    bounded by the sizes of its inputs in the same unit: the bytes of the
    datastore name, three bytes of brackets and space, and between once
    and three times the bytes of the stripped path (at most three times
    the bytes of the path given). *)
Theorem file_specifier_length_bounds tilde (ds p : string) :
  String.length ds + 3 + String.length (PyStr.strip "/" p)
  <= String.length (vmware_path2 tilde ds p)
  /\ String.length (vmware_path2 tilde ds p)
     <= String.length ds + 3 + 3 * String.length p.
Proof.
  unfold vmware_path2. simpl. rewrite !length_append. simpl.
  destruct (quote_length tilde (PyStr.strip "/" p) "/") as [H1 H2].
  assert (H3 := length_strip "/" p). lia.
Qed.

(** ** The reconciliation routine, beyond the claims *)

Section Further.

Variable tilde : bool.
Variable PY2 : bool.
Variable int_str : string -> option Z.
Variable module : AnsibleModule.
Variable remote : Remote.

Abbreviation outcome := (outcome tilde PY2 int_str module remote).
Abbreviation trace := (trace tilde PY2 int_str module remote).
Abbreviation head_response := (head_response tilde module remote).
Abbreviation head_call := (head_call tilde module).
Abbreviation put_call := (put_call tilde module).
Abbreviation delete_call := (delete_call tilde module).
Abbreviation mkdir_call := (mkdir_call tilde module).
Abbreviation url := (url tilde module).

(** X8: a run makes no call at all (the session could not be set up), or
    the HEAD alone, or the HEAD followed by exactly one changing call; and
    that call is the delete only for [absent], the mkdir only for
    [directory], the PUT only for [touch], and never in a dry run. *)
Theorem one_probe_then_at_most_one_change :
  (trace = [] /\ session remote <> None)
  \/ trace = [head_call]
  \/ (trace = [head_call; delete_call]
      /\ state (params module) = absent /\ check_mode module = false)
  \/ (trace = [head_call; mkdir_call]
      /\ state (params module) = directory /\ check_mode module = false)
  \/ (trace = [head_call; put_call]
      /\ state (params module) = touch /\ check_mode module = false).
Proof.
  unfold_main. explore; finish;
    first [ left; split; [reflexivity | discriminate]
          | right; left; reflexivity
          | right; right; left; repeat split; (reflexivity || assumption)
          | right; right; right; left; repeat split; (reflexivity || assumption)
          | right; right; right; right; repeat split; (reflexivity || assumption) ].
Qed.

(** X9: the [changed] flag tells the truth about the calls made.  A run
    reporting changed=false made the HEAD and nothing else; a run
    reporting changed=true made the HEAD and then exactly one changing
    call, except in a dry run, where it made the HEAD alone. *)
Theorem changed_matches_the_calls :
  match outcome with
  | ExitJson false _ => trace = [head_call]
  | ExitJson true _ =>
      if check_mode module then trace = [head_call]
      else exists c, trace = [head_call; c] /\ is_mutating c = true
  | FailJson _ | SessionFailed _ | Crash _ => True
  end.
Proof.
  unfold_main. explore; finish; eexists; split; reflexivity.
Qed.

(** X10: what a successful run reports as state and status.  The state
    is the requested one, [touch] being reported as [file]; the status is
    200 for [file], 201 for a [touch] that created the file (or would, in
    a dry run), and unset otherwise, also after a delete or a mkdir. *)
Theorem success_reports_state_and_status :
  match outcome with
  | ExitJson changed res =>
      r_state res = reported_state (state (params module))
      /\ r_status res = reported_status (state (params module)) changed
  | FailJson _ | SessionFailed _ | Crash _ => True
  end.
Proof.
  unfold_main. explore; finish.
Qed.

(** X11: the size a run reports.  After a HEAD response of status 200
    whose [content-length] is [n], every result, success or failure,
    carries the size [n].  After a status 404 the size is unset, except
    for a successful [touch], which reports 0. *)
Theorem reported_size (r : Response) :
  head_response r ->
  (forall n, getcode r = 200%Z -> content_length int_str r n ->
     match outcome with
     | ExitJson _ res => r_size res = Some n
     | FailJson f => r_size (f_result f) = Some n
     | SessionFailed _ => False
     | Crash _ => True
     end)
  /\ (getcode r = 404%Z ->
      match outcome with
      | ExitJson _ res =>
          r_size res = match state (params module) with
                       | touch => Some 0%Z
                       | _ => None
                       end
      | FailJson f => r_size (f_result f) = None
      | SessionFailed _ => False
      | Crash _ => True
      end).
Proof.
  intros [Hs Hr]. split.
  - intros n H2 [v [Hl Hi]]. unfold_main. rewrite Hs.
    use_reply Hr; rewrite H2; eval_literals; rewrite Hl, Hi; explore; auto.
  - intros H4. unfold_main. rewrite Hs.
    use_reply Hr; rewrite H4; eval_literals; explore; auto.
Qed.

(** X12: a HEAD request that raises anything but an [HTTPError] or a
    socket error ends the run at once: the failure carries the text of the
    exception as message and as reason and the names [dir(e)] lists as
    [errno]; size and status are unset, and the HEAD is the only call. *)
Theorem head_exception_is_reported (e : PyException) :
  session remote = None -> open_url remote HEAD url = RaisedException e ->
  trace = [head_call]
  /\ outcome
     = FailJson
         {| f_msg := text e;
            f_errno := Some (PyNames (attributes e));
            f_headers := None;
            f_result :=
              {| r_path := path (params module); r_size := None;
                 r_state := state (params module); r_status := None;
                 r_url := url; r_reason := Some (text e) |} |}.
Proof.
  intros Hs He. unfold_main. rewrite Hs, He. split; reflexivity.
Qed.

(** X14: a dry run still probes: once the session is set up it makes
    exactly one call, the HEAD, whatever the state asked for and whatever
    the remote side answers. *)
Theorem dry_run_makes_the_probe_only :
  check_mode module = true -> session remote = None -> trace = [head_call].
Proof.
  intros Hcm Hs. unfold_main. rewrite Hcm, Hs. explore; reflexivity.
Qed.

End Further.

Lemma reported_size_witness :
  head_response true (sample_module file false)
    (sample_remote found created TaskDone TaskDone) found_response
  /\ match outcome true false decimal (sample_module file false)
           (sample_remote found created TaskDone TaskDone) with
     | ExitJson _ res => r_size res = Some 42%Z
     | FailJson f => r_size (f_result f) = Some 42%Z
     | SessionFailed _ => False
     | Crash _ => True
     end.
Proof.
  assert (H : head_response true (sample_module file false)
                (sample_remote found created TaskDone TaskDone) found_response)
    by (split; reflexivity).
  split; [exact H|].
  apply (proj1 (reported_size true false decimal _ _ _ H) 42%Z); [reflexivity|].
  exists "42". split; reflexivity.
Defined.

Lemma head_exception_is_reported_witness :
  session (sample_remote (RaisedException boom) created TaskDone TaskDone) = None
  /\ exists f,
       outcome true false decimal (sample_module file false)
         (sample_remote (RaisedException boom) created TaskDone TaskDone) = FailJson f
       /\ f_msg f = "boom".
Proof.
  split; [reflexivity|].
  destruct (head_exception_is_reported true false decimal (sample_module file false)
              (sample_remote (RaisedException boom) created TaskDone TaskDone) boom
              eq_refl eq_refl) as [_ Ho].
  eexists. split; [exact Ho | reflexivity].
Defined.

Lemma dry_run_makes_the_probe_only_witness :
  check_mode (sample_module directory true) = true
  /\ trace true false decimal (sample_module directory true)
       (sample_remote not_found created TaskDone (TaskRaised boom))
     = [head_call true (sample_module directory true)].
Proof.
  split; [reflexivity|].
  apply (dry_run_makes_the_probe_only true false decimal
           (sample_module directory true)
           (sample_remote not_found created TaskDone (TaskRaised boom)));
    reflexivity.
Defined.
